(** * Arista_Automation: configuration builders and deployment scripts

  A shallow embedding of the two scripts of the repository that build
  and push configuration

    - [DR-DC-TOR-ARSW-02.py]  (base / MLAG / port-channel templates and
                               the serial deployment run),
    - [Vlan-Definitions.py]   (validated VLAN creation),

  together with the properties their specification states about them.
  ([Show-Config.py] only reads a running configuration back.)
  Python integers are [Z], Python strings are [string], Python lists are
  [list]; calls into the connection libraries (pyserial, netmiko) are
  events answered by an arbitrary transport, and exceptions are explicit
  results. *)

From Stdlib Require Import ZArith List String Ascii DecimalString Bool Lia.
From Stdlib Require Import DecimalPos DecimalZ.
Import ListNotations.

Local Open Scope string_scope.
Local Open Scope list_scope.

Infix "+++" := String.append (at level 60, right associativity).

(* ================================================================== *)
(** ** The fragment of Python the scripts use *)
(* ================================================================== *)

Module Py.

(** [str(n)] / [f"{n}"] for an integer: signed decimal, no padding. *)
Definition str (n : Z) : string := NilZero.string_of_int (Z.to_int n).

(** [range(lo, hi)]: lo, lo+1, ..., hi-1 (empty when hi <= lo). *)
Definition range (lo hi : Z) : list Z :=
  map (fun i => (lo + Z.of_nat i)%Z) (seq 0 (Z.to_nat (hi - lo))).

(** [len(l)] as a Python integer. *)
Definition len {A} (l : list A) : Z := Z.of_nat (List.length l).

(** Truthiness of an optional list argument: [None] and [[]] are falsy. *)
Definition truthy {A} (o : option (list A)) : bool :=
  match o with
  | None => false
  | Some [] => false
  | Some (_ :: _) => true
  end.

(** The line feed of ["\n"]. *)
Definition LF : string := String (ascii_of_nat 10) EmptyString.

(** [s.split("\n")] for a string: its lines. *)
Fixpoint split_lines_aux (cur : string) (s : string) : list string :=
  match s with
  | EmptyString => [cur]
  | String c s' =>
      if Ascii.eqb c (ascii_of_nat 10)
      then cur :: split_lines_aux EmptyString s'
      else split_lines_aux (cur +++ String c EmptyString) s'
  end.
Definition split_lines (s : string) : list string :=
  split_lines_aux EmptyString s.

(** [sub in s] for strings. *)
Definition contains (sub s : string) : bool :=
  match String.index 0 sub s with
  | Some _ => true
  | None => false
  end.

(** [l.index(x)] for a list of strings ([None] where Python raises). *)
Fixpoint index_of (x : string) (l : list string) : option nat :=
  match l with
  | [] => None
  | y :: l' =>
      if String.eqb x y then Some 0%nat
      else option_map S (index_of x l')
  end.

(** [l.count(x)] for a list of strings. *)
Definition count (x : string) (l : list string) : nat :=
  List.length (filter (String.eqb x) l).

End Py.

(* ================================================================== *)
(** ** Exceptions, the outside world and the statement forms used *)
(* ================================================================== *)

Module Runtime.

(** The exception classes that occur.  [OtherException] stands for
    whatever else a library raises that derives from [Exception] (a
    netmiko timeout, an authentication failure, an [OSError], ...);
    [NonException] for what derives from [BaseException] only
    ([KeyboardInterrupt], [SystemExit], [GeneratorExit]). *)
Inductive exn : Type :=
| ValueError (msg : string)
| IndexError (msg : string)
| SerialException (msg : string)
| OtherException (cls msg : string)
| NonException (cls msg : string).

(** [str(e)]. *)
Definition str_exn (e : exn) : string :=
  match e with
  | ValueError msg | IndexError msg | SerialException msg
  | OtherException _ msg | NonException _ msg => msg
  end.

Definition is_SerialException (e : exn) : bool :=
  match e with SerialException _ => true | _ => false end.

Definition is_ValueError (e : exn) : bool :=
  match e with ValueError _ => true | _ => false end.

Inductive result (A : Type) : Type :=
| Ok (a : A)
| Raise (e : exn).
Arguments Ok {A} a.
Arguments Raise {A} e.

(** Device-parameter dictionaries: string keys, values that are strings,
    integers or dictionaries again. *)
Inductive pyval : Type :=
| PStr (s : string)
| PInt (n : Z)
| PDict (d : pydict)
with pydict : Type :=
| DEmpty
| DItem (key : string) (value : pyval) (rest : pydict).

Definition device_params : Type := pydict.

(** Calls that leave the script: pyserial and netmiko. *)
Inductive call : Type :=
| SerialOpen (port : string) (baudrate timeout : Z)
| SerialClose
| Connect (device : device_params)
| Disconnect
| SendConfigSet (commands : list string)
| SendCommand (command_string expect_string : string)
| SaveConfig.

(** One call together with how it ended. *)
Definition event : Type := call * result string.

(** The transport collaborator: given the calls made so far it decides
    whether the next call returns (with the device output) or raises. *)
Definition transport : Type := list event -> call -> result string.

Inductive level : Type := INFO | ERROR.

Record world : Type := World {
  trace  : list event;             (* calls made, oldest first *)
  log    : list (level * string);  (* lines handed to the logger *)
  stdout : list string;            (* lines printed *)
  locals : list string             (* names bound in the running function *)
}.

Definition initial : world := World [] [] [] [].

(** Computations: a result and the world after it; the world survives an
    exception. *)
Definition M (A : Type) : Type := world -> result A * world.

Definition ret {A} (a : A) : M A := fun w => (Ok a, w).

Definition raise {A} (e : exn) : M A := fun w => (Raise e, w).

Definition bind {A B} (m : M A) (k : A -> M B) : M B :=
  fun w =>
    match m w with
    | (Ok a, w') => k a w'
    | (Raise e, w') => (Raise e, w')
    end.

Definition lift {A} (r : result A) : M A := fun w => (r, w).

(** [try: body / except <classes>: handler]. *)
Definition try_except {A} (body : M A) (catches : exn -> bool)
    (handler : exn -> M A) : M A :=
  fun w =>
    match body w with
    | (Ok a, w') => (Ok a, w')
    | (Raise e, w') =>
        if catches e then handler e w' else (Raise e, w')
    end.

(** [try: body / finally: final]. *)
Definition try_finally {A} (body : M A) (final : M unit) : M A :=
  fun w =>
    match body w with
    | (r, w') =>
        match final w' with
        | (Ok _, w'') => (r, w'')
        | (Raise e, w'') => (Raise e, w'')
        end
    end.

(** The clause [except Exception]: it catches the classes deriving from
    [Exception] and lets the others through. *)
Definition Exception (e : exn) : bool :=
  match e with
  | NonException _ _ => false
  | _ => true
  end.

Definition record (ev : event) : M unit :=
  fun w => (Ok tt, World (trace w ++ [ev]) (log w) (stdout w) (locals w)).

Definition logger (lv : level) (msg : string) : M unit :=
  fun w => (Ok tt, World (trace w) (log w ++ [(lv, msg)]) (stdout w) (locals w)).

Definition print (line : string) : M unit :=
  fun w => (Ok tt, World (trace w) (log w) (stdout w ++ [line]) (locals w)).

Definition bind_local (name : string) : M unit :=
  fun w => (Ok tt, World (trace w) (log w) (stdout w) (locals w ++ [name])).

Definition in_locals (name : string) : M bool :=
  fun w => (Ok (existsb (String.eqb name) (locals w)), w).

Definition sleep (seconds : Z) : M unit := ret tt.

Section Calls.

Variable t : transport.

(** A call the transport answers; it is recorded with its outcome. *)
Definition perform (c : call) : M string :=
  fun w =>
    let r := t (trace w) c in
    (r, World (trace w ++ [(c, r)]) (log w) (stdout w) (locals w)).

(** Closing calls: netmiko's [disconnect] discards the exceptions of its
    clean-up and pyserial's [close] has nothing to report, so they are
    recorded as returning without asking the transport. *)
Definition cleanup (c : call) : M unit := record (c, Ok "").

(** The statement [with ConnectHandler(...) as conn: body]. *)
Definition with_ConnectHandler {A} (device : device_params) (body : M A)
  : M A :=
  bind (perform (Connect device))
       (fun _ => try_finally body (cleanup Disconnect)).

End Calls.

(** Calling a function: its body runs with local names of its own, and
    the caller's names are back when it returns or raises. *)
Definition call_function {A} (body : M A) : M A :=
  fun w =>
    match body (World (trace w) (log w) (stdout w) []) with
    | (r, w') => (r, World (trace w') (log w') (stdout w') (locals w))
    end.

(** The exceptions raised by the calls of a trace, oldest first. *)
Fixpoint raised (tr : list event) : list exn :=
  match tr with
  | [] => []
  | (_, Raise e) :: tr' => e :: raised tr'
  | (_, Ok _) :: tr' => raised tr'
  end.

(** The calls of a trace that satisfy [p]. *)
Definition calls_where (p : call -> bool) (tr : list event) : list event :=
  filter (fun ev => p (fst ev)) tr.

(** Some call satisfying [p] returned. *)
Definition some_returned (p : call -> bool) (tr : list event) : bool :=
  existsb (fun ev => p (fst ev)
                     && match snd ev with Ok _ => true | Raise _ => false end)
          tr.

Definition is_SerialOpen (c : call) : bool :=
  match c with SerialOpen _ _ _ => true | _ => false end.
Definition is_SerialClose (c : call) : bool :=
  match c with SerialClose => true | _ => false end.
Definition is_Connect (c : call) : bool :=
  match c with Connect _ => true | _ => false end.
Definition is_Disconnect (c : call) : bool :=
  match c with Disconnect => true | _ => false end.
Definition is_SendConfigSet (c : call) : bool :=
  match c with SendConfigSet _ => true | _ => false end.
Definition is_SaveConfig (c : call) : bool :=
  match c with SaveConfig => true | _ => false end.

End Runtime.

Declare Scope py_scope.
Delimit Scope py_scope with py.
Notation "x <- m ;; k" := (Runtime.bind m (fun x => k))
  (at level 61, m at next level, right associativity) : py_scope.
Notation "m ;; k" := (Runtime.bind m (fun _ => k))
  (at level 61, right associativity) : py_scope.

(* ================================================================== *)
(** ** DR-DC-TOR-ARSW-02.py: configuration templates *)
(* ================================================================== *)

Module DR_DC_TOR_ARSW_02.

(** Serial connection settings. *)
Definition SERIAL_PORT : string := "COM4".
Definition BAUDRATE : Z := 9600.
Definition TIMEOUT : Z := 8.

(** Configuration variables. *)
Definition HOSTNAME : string := "DBDR-HCI-TOR-SW-02".
Definition MGMT_IP : string := "172.16.105.11/24".
Definition MLAG_PEER_IP : string := "10.0.0.1".
Definition MLAG_VLAN_IP : string := "10.0.0.2/30".

(** [get_base_config]: the list literal of the source.  After
    ["no shutdown"] the source has the two literals ["exit"] and
    ["ip domain-name Dashen.local"] with only a comment line between
    them and no comma: Python joins adjacent literals into one element. *)
Definition get_base_config : list string :=
  [ "enable";
    "configure terminal";
    "hostname " +++ HOSTNAME;
    "no aaa root";
    "username admin privilege 15 secret %TGBnhy6";
    "enable secret %TGBnhy6";
    (* Console hardening *)
    "line console 0";
    "login local";
    "exec-timeout 10 0";
    "no history";
    "length 0";
    "transport input none";
    "exit";
    (* Management interface *)
    "interface Management1";
    "ip address " +++ MGMT_IP;
    "no shutdown";
    "exit" +++ "ip domain-name Dashen.local";
    "username admin privilege 15 secret %TGBnhy6";
    "ip ssh version 2";
    "crypto key generate rsa modulus 2048" ].

(** [get_mlag_config]. *)
Definition get_mlag_config : list string :=
  [ (* MLAG VLAN *)
    "vlan 4094";
    "name MLAG-Peer";
    "trunk group MLAG-Peer";
    "exit";
    "interface Vlan4094";
    "ip address " +++ MLAG_VLAN_IP;
    "no shutdown";
    "exit";
    (* Peer Link *)
    "interface Ethernet49-50";
    "description MLAG_PEER_LINK_MEMBER";
    "channel-group 100 mode active";
    "no shutdown";
    "exit";
    "interface Port-Channel100";
    "description MLAG_PEER_LINK";
    "switchport mode trunk";
    "mlag peer-link";
    "no shutdown";
    "exit";
    (* MLAG Global Config *)
    "mlag configuration";
    "domain-id DR-TOR-MLAG";
    "local-interface Vlan4094";
    "peer-address " +++ MLAG_PEER_IP;
    "peer-link Port-Channel100";
    "exit" ].

(** The list the loop body of [generate_port_channels] hands to
    [config.extend] for one channel id [po]. *)
Definition port_channel_pair (po : Z) : list string :=
  let eth_port := (po - 9)%Z in
  [ (* Member Interface *)
    "interface Ethernet" +++ Py.str eth_port;
    "description PC_" +++ Py.str po +++ "_MEMBER";
    "channel-group " +++ Py.str po +++ " mode active";
    "no shutdown";
    "exit";
    (* Port-Channel Interface *)
    "interface Port-Channel" +++ Py.str po;
    "description UPLINK_PO_" +++ Py.str po;
    "switchport mode trunk";
    "mlag " +++ Py.str po;
    "no shutdown";
    "exit" ].

(** [generate_port_channels]: [config = []], then one [config.extend]
    per [po] in [range(10, 46)]. *)
Definition generate_port_channels : list string :=
  fold_left (fun config po => config ++ port_channel_pair po)
            (Py.range 10 46) [].

(** *** Reading a command list as interface blocks

    A block runs from a command up to and including the next ["exit"];
    it is an interface block when it opens with ["interface <name>"]. *)
Fixpoint blocks_aux (cur : list string) (cmds : list string)
  : list (list string) :=
  match cmds with
  | [] => match cur with [] => [] | _ => [rev cur] end
  | c :: cmds' =>
      if String.eqb c "exit"
      then rev (c :: cur) :: blocks_aux [] cmds'
      else blocks_aux (c :: cur) cmds'
  end.
Definition blocks (cmds : list string) : list (list string) :=
  blocks_aux [] cmds.

Definition is_interface_block (b : list string) : bool :=
  match b with
  | c :: _ => String.prefix "interface " c
  | [] => false
  end.

Definition interface_blocks (cmds : list string) : list (list string) :=
  filter is_interface_block (blocks cmds).

(** *** Reading the templates *)

(** The five member-interface commands of channel [po]: the interface,
    its description, the channel-group binding, enable, exit. *)
Definition member_block (po : Z) : list string :=
  [ "interface Ethernet" +++ Py.str (po - 9);
    "description PC_" +++ Py.str po +++ "_MEMBER";
    "channel-group " +++ Py.str po +++ " mode active";
    "no shutdown";
    "exit" ].

(** The six port-channel commands of channel [po]: the interface, its
    description, trunk mode, the MLAG mapping, enable, exit. *)
Definition aggregate_block (po : Z) : list string :=
  [ "interface Port-Channel" +++ Py.str po;
    "description UPLINK_PO_" +++ Py.str po;
    "switchport mode trunk";
    "mlag " +++ Py.str po;
    "no shutdown";
    "exit" ].

(** Positions of the commands satisfying [p], counted from [i]. *)
Fixpoint positions_from (p : string -> bool) (i : nat) (cmds : list string)
  : list nat :=
  match cmds with
  | [] => []
  | c :: cmds' =>
      if p c then i :: positions_from p (S i) cmds'
      else positions_from p (S i) cmds'
  end.

(** Positions at which interface [name] is declared. *)
Definition declarations (name : string) (cmds : list string) : list nat :=
  positions_from (String.eqb ("interface " +++ name)) 0 cmds.

(** Positions, inside the block opened by ["mlag configuration"], of the
    commands that name [name]. *)
Definition domain_references (name : string) (cmds : list string)
  : list nat :=
  match Py.index_of "mlag configuration" cmds with
  | Some d =>
      positions_from (Py.contains name) d (skipn d cmds)
  | None => []
  end.

(** *** The deployment run *)

Import Runtime.
Local Open Scope py_scope.

Section Deployment.

Variable t : transport.

(** [establish_serial_connection]: open the port, log, return the handle;
    a [serial.SerialException] is logged and raised again. *)
Definition establish_serial_connection : M string :=
  try_except
    (ser <- perform t (SerialOpen SERIAL_PORT BAUDRATE TIMEOUT) ;;
     logger INFO ("Serial connection established on " +++ SERIAL_PORT) ;;
     ret ser)
    is_SerialException
    (fun e =>
       logger ERROR ("Serial connection failed: " +++ str_exn e) ;;
       raise e).

Definition netmiko_device : device_params :=
  DItem "device_type" (PStr "terminal_server")
  (DItem "session_log" (PStr "serial_session.log")
  (DItem "serial_settings"
     (PDict (DItem "port" (PStr SERIAL_PORT)
            (DItem "baudrate" (PInt BAUDRATE)
            (DItem "timeout" (PInt TIMEOUT) DEmpty))))
   DEmpty)).

(** The [try] statement of [deploy_config].  Its value is [Some v] when a
    [return v] inside it was reached and [None] when control falls out of
    its end. *)
Definition deploy_config_try : M (option bool) :=
  try_finally
    (try_except
       ((* Initialize serial connection *)
        _ser <- establish_serial_connection ;;
        bind_local "ser" ;;
        sleep 2 ;;
        with_ConnectHandler t netmiko_device
          (logger INFO "Netmiko session established" ;;
           (* Send base config *)
           perform t (SendConfigSet get_base_config) ;;
           logger INFO "Base configuration applied" ;;
           (* Send MLAG config *)
           perform t (SendConfigSet get_mlag_config) ;;
           logger INFO "MLAG configuration applied" ;;
           (* Send Port-Channels *)
           perform t (SendConfigSet generate_port_channels) ;;
           logger INFO "Port-Channels 10-45 configured" ;;
           (* Commit and save *)
           perform t (SendCommand "write memory" "#") ;;
           logger INFO "Configuration saved" ;;
           print (Py.LF +++ "[SUCCESS] Deployment completed via console!")) ;;
        ret None)
       Exception
       (fun e =>
          logger ERROR ("Deployment failed: " +++ str_exn e) ;;
          print ("[ERROR] " +++ str_exn e) ;;
          ret (Some false)))
    (bound <- in_locals "ser" ;;
     if bound then cleanup SerialClose else ret tt).

(** [deploy_config]: the [try] statement, then [return True]. *)
Definition deploy_config : M bool :=
  r <- deploy_config_try ;;
  match r with
  | Some v => ret v
  | None => ret true
  end.

End Deployment.

(** *** Reading the outcome of a run *)

(** The batches of the run, in the order the script sends them. *)
Definition batches : list (list string) :=
  [get_base_config; get_mlag_config; generate_port_channels].


(** Batch sends of a trace, with their outcomes. *)
Fixpoint batch_sends (tr : list event) : list (list string * result string) :=
  match tr with
  | [] => []
  | (SendConfigSet cmds, r) :: tr' => (cmds, r) :: batch_sends tr'
  | _ :: tr' => batch_sends tr'
  end.

Definition returned {A} (r : result A) : bool :=
  match r with Ok _ => true | Raise _ => false end.

(** Batches whose send returned. *)
Definition completed_batches (tr : list event) : list (list string) :=
  map fst (filter (fun b => returned (snd b)) (batch_sends tr)).

(** Some batch send raised. *)
Definition batch_send_failed (tr : list event) : bool :=
  existsb (fun b => negb (returned (snd b))) (batch_sends tr).

(** Every batch of the run was sent and every send returned. *)
Definition every_batch_send_succeeds (tr : list event) : Prop :=
  map fst (batch_sends tr) = batches /\ batch_send_failed tr = false.

Definition is_persist (c : call) : bool :=
  match c with
  | SendCommand cmd _ => String.eqb cmd "write memory"
  | _ => false
  end.

(** Positions in the trace at which the persist command is sent. *)
Fixpoint persist_positions_from (i : nat) (tr : list event) : list nat :=
  match tr with
  | [] => []
  | (c, _) :: tr' =>
      if is_persist c then i :: persist_positions_from (S i) tr'
      else persist_positions_from (S i) tr'
  end.
Definition persist_positions (tr : list event) : list nat :=
  persist_positions_from 0 tr.

(** Positions in the trace at which a batch is sent. *)
Fixpoint batch_positions_from (i : nat) (tr : list event) : list nat :=
  match tr with
  | [] => []
  | (SendConfigSet _, _) :: tr' => i :: batch_positions_from (S i) tr'
  | _ :: tr' => batch_positions_from (S i) tr'
  end.
Definition batch_positions (tr : list event) : list nat :=
  batch_positions_from 0 tr.

(** The persist command of a trace returned. *)
Definition persist_returned (tr : list event) : bool :=
  existsb (fun ev => is_persist (fst ev) && returned (snd ev)) tr.


(** A transport that answers every call except that the [k]-th batch send
    (counted from 1) raises. *)
Definition fails_on_batch (k : nat) : transport :=
  fun history c =>
    match c with
    | SendConfigSet _ =>
        if Nat.eqb (S (List.length (batch_sends history))) k
        then Raise (OtherException "ReadTimeout" "Pattern not detected")
        else Ok ""
    | _ => Ok ""
    end.

(** A transport on which every batch send returns and the persist command
    times out. *)
Definition persist_times_out : transport :=
  fun _ c =>
    match c with
    | SendCommand _ _ =>
        Raise (OtherException "ReadTimeout" "Pattern not detected")
    | _ => Ok ""
    end.

(** A transport that answers every call. *)
Definition always_ok : transport := fun _ _ => Ok "".

(** *** The script body *)

(** The statements under [if __name__ == "__main__"]. *)
Definition main (t : transport) : M unit :=
  print ("Starting console deployment to " +++ HOSTNAME +++ "...") ;;
  done <- call_function (deploy_config t) ;;
  if done
  then print "Done! Check arista_console_deploy.log for details"
  else print "Deployment failed. Check logs for troubleshooting".

(** The lines a run can print and log. *)
Definition success_line : string :=
  Py.LF +++ "[SUCCESS] Deployment completed via console!".

Definition info_lines : list (level * string) :=
  [ (INFO, "Serial connection established on COM4");
    (INFO, "Netmiko session established");
    (INFO, "Base configuration applied");
    (INFO, "MLAG configuration applied");
    (INFO, "Port-Channels 10-45 configured");
    (INFO, "Configuration saved") ].

Definition is_error_line (l : level * string) : bool :=
  match fst l with ERROR => true | INFO => false end.

(** The ["interface <name>"] commands of a batch, in order. *)
Definition interface_declarations (cmds : list string) : list string :=
  filter (String.prefix "interface ") cmds.

End DR_DC_TOR_ARSW_02.


(* ================================================================== *)
(** ** Vlan-Definitions.py: validated VLAN creation *)
(* ================================================================== *)

Module Vlan_Definitions.

Import Runtime.
Local Open Scope py_scope.

(** [vlan_names[i]]: an index past the end raises [IndexError]. *)
Definition getitem (vlan_names : option (list string)) (i : nat)
  : result string :=
  match vlan_names with
  | Some names =>
      match nth_error names i with
      | Some name => Ok name
      | None => Raise (IndexError "list index out of range")
      end
  | None => Raise (OtherException "TypeError" "'NoneType' object is not subscriptable")
  end.

(** The loop [for i, vlan_id in enumerate(vlan_ids)], started at index [i]
    with the commands collected so far. *)
Fixpoint vlan_loop (vlan_names : option (list string)) (i : nat)
    (vlan_ids : list Z) (commands : list string) : result (list string) :=
  match vlan_ids with
  | [] => Ok commands
  | vlan_id :: rest =>
      if negb ((1 <=? vlan_id)%Z && (vlan_id <=? 4094)%Z)
      then Raise (ValueError ("Invalid VLAN ID " +++ Py.str vlan_id
                              +++ ": Must be 1-4094"))
      else
        let cmd := "vlan " +++ Py.str vlan_id in
        if Py.truthy vlan_names
        then
          match getitem vlan_names i with
          | Ok name =>
              vlan_loop vlan_names (S i) rest
                (commands ++ [cmd +++ Py.LF +++ "name " +++ name])
          | Raise e => Raise e
          end
        else vlan_loop vlan_names (S i) rest (commands ++ [cmd])
  end.

(** Length of an optional list; only evaluated behind [vlan_names and ...],
    so never on [None]. *)
Definition len_names (vlan_names : option (list string)) : Z :=
  match vlan_names with
  | Some names => Py.len names
  | None => 0
  end.

(** The part of [create_vlans] before the connection is opened: the
    length check and the command-construction loop. *)
Definition create_vlans_commands (vlan_ids : list Z)
    (vlan_names : option (list string)) : result (list string) :=
  if Py.truthy vlan_names
     && negb (Py.len vlan_ids =? len_names vlan_names)%Z
  then Raise (ValueError "vlan_ids and vlan_names must be the same length")
  else vlan_loop vlan_names 0 vlan_ids [].

Section CreateVlans.

Variable t : transport.

(** [create_vlans(device_params, vlan_ids, vlan_names=None)]. *)
Definition create_vlans (device : device_params) (vlan_ids : list Z)
    (vlan_names : option (list string)) : M string :=
  commands <- lift (create_vlans_commands vlan_ids vlan_names) ;;
  with_ConnectHandler t device
    (output <- perform t (SendConfigSet commands) ;;
     perform t SaveConfig ;;
     ret output).

End CreateVlans.

(** The device dictionary of the example at the end of the script. *)
Definition switch : device_params :=
  DItem "device_type" (PStr "arista_eos")
  (DItem "host" (PStr "192.168.1.1")
  (DItem "username" (PStr "admin")
  (DItem "password" (PStr "password")
  (DItem "secret" (PStr "enablepass") DEmpty)))).

(** An id the device accepts as a VLAN id. *)
Definition valid_id (vlan_id : Z) : Prop := (1 <= vlan_id <= 4094)%Z.

(** The result is the length-mismatch error. *)
Definition is_length_mismatch {A} (r : result A) : bool :=
  match r with
  | Raise (ValueError msg) =>
      String.eqb msg "vlan_ids and vlan_names must be the same length"
  | _ => false
  end.

Definition raises_ValueError {A} (r : result A) : bool :=
  match r with
  | Raise e => is_ValueError e
  | Ok _ => false
  end.

(** The names, when they count, reach as far as the loop will index. *)
Definition names_cover (vlan_names : option (list string)) (i : nat)
    (vlan_ids : list Z) : Prop :=
  Py.truthy vlan_names = true ->
  exists names,
    vlan_names = Some names
    /\ (i + List.length vlan_ids <= List.length names)%nat.

(** The six lines the example of the specification expects. *)
Definition six_lines : list string :=
  [ "vlan 10"; "name MGMT"; "vlan 20"; "name VOICE"; "vlan 30"; "name DATA" ].

(** A transport that answers every call with the same device output. *)
Definition echo (output : string) : transport := fun _ _ => Ok output.

(** The command the loop builds for an id with its name. *)
Definition named_command (p : Z * string) : string :=
  "vlan " +++ Py.str (fst p) +++ Py.LF +++ "name " +++ snd p.

(** The command the loop builds for an id without a name. *)
Definition bare_command (vlan_id : Z) : string :=
  "vlan " +++ Py.str vlan_id.

(** The error the loop raises for an id out of range. *)
Definition invalid_id_error (vlan_id : Z) : exn :=
  ValueError ("Invalid VLAN ID " +++ Py.str vlan_id +++ ": Must be 1-4094").

(** *** The script body *)

Definition vlans_to_create : list Z := [10; 20; 30; 40]%Z.
Definition vlan_names : list string := ["MGMT"; "VOICE"; "DATA"; "GUEST"].

(** The statements under [if __name__ == "__main__"]. *)
Definition main (t : transport) : M unit :=
  result <- call_function
              (create_vlans t switch vlans_to_create (Some vlan_names)) ;;
  print "VLAN creation result:" ;;
  print result.

End Vlan_Definitions.


(* ================================================================== *)
(** ** Lists built by an extending loop *)
(* ================================================================== *)

Section ExtendLoop.

Context {A B : Type}.
Variable body : A -> list B.

(** [config = init; for x in l: config.extend(body(x))]. *)
Lemma extend_loop_flat_map (l : list A) :
  forall init,
    fold_left (fun config x => config ++ body x) l init
    = init ++ flat_map body l.
Proof.
  induction l as [|x l IH]; intros init; simpl.
  - now rewrite app_nil_r.
  - rewrite IH. now rewrite <- app_assoc.
Qed.

Variable n : nat.
Hypothesis body_length : forall x, List.length (body x) = n.

Lemma flat_map_const_length (l : list A) :
  List.length (flat_map body l) = (n * List.length l)%nat.
Proof.
  induction l as [|x l IH]; simpl.
  - lia.
  - rewrite length_app, IH, body_length. lia.
Qed.

(** The [i]-th window of width [n] is the body of the [i]-th element. *)
Lemma flat_map_window (l : list A) :
  forall i x,
    nth_error l i = Some x ->
    firstn n (skipn (n * i) (flat_map body l)) = body x.
Proof.
  induction l as [|a l IH]; intros [|i] x Hx; simpl in Hx; try discriminate.
  - injection Hx as ->. simpl flat_map.
    rewrite Nat.mul_0_r. simpl skipn.
    rewrite firstn_app, body_length, Nat.sub_diag. simpl firstn at 2.
    rewrite app_nil_r. apply firstn_all2. rewrite body_length. lia.
  - simpl flat_map.
    replace (n * S i)%nat with (List.length (body a) + n * i)%nat
      by (rewrite body_length; lia).
    rewrite skipn_app.
    rewrite (skipn_all2 (body a)) by lia.
    replace (List.length (body a) + n * i - List.length (body a))%nat
      with (n * i)%nat by lia.
    simpl. now apply IH.
Qed.

Lemma flat_map_nth_error (l : list A) :
  forall i j x,
    nth_error l i = Some x -> (j < n)%nat ->
    nth_error (flat_map body l) (n * i + j) = nth_error (body x) j.
Proof.
  induction l as [|a l IH]; intros [|i] j x Hx Hj; simpl in Hx;
    try discriminate.
  - injection Hx as ->. simpl flat_map.
    rewrite Nat.mul_0_r. simpl.
    apply nth_error_app1. rewrite body_length. exact Hj.
  - simpl flat_map.
    rewrite nth_error_app2 by (rewrite body_length; lia).
    rewrite body_length.
    replace (n * S i + j - n)%nat with (n * i + j)%nat by lia.
    now apply IH.
Qed.

End ExtendLoop.

(* ================================================================== *)
(** ** Facts about [range] *)
(* ================================================================== *)

Lemma range_length (lo hi : Z) :
  List.length (Py.range lo hi) = Z.to_nat (hi - lo).
Proof.
  unfold Py.range. now rewrite length_map, length_seq.
Qed.

Lemma range_nth_error (lo hi : Z) (i : nat) :
  (i < Z.to_nat (hi - lo))%nat ->
  nth_error (Py.range lo hi) i = Some (lo + Z.of_nat i)%Z.
Proof.
  intros Hi. unfold Py.range.
  rewrite nth_error_map, nth_error_seq.
  destruct (Nat.ltb_spec i (Z.to_nat (hi - lo))); [reflexivity | lia].
Qed.

(** The channel id [po] sits at position [po - lo] of [range(lo, hi)]. *)
Lemma range_position (lo hi po : Z) :
  (lo <= po < hi)%Z ->
  nth_error (Py.range lo hi) (Z.to_nat (po - lo)) = Some po.
Proof.
  intros H. rewrite range_nth_error by lia. f_equal. lia.
Qed.

(* ================================================================== *)
(** ** The configuration templates *)
(* ================================================================== *)

Section Templates.

Import DR_DC_TOR_ARSW_02.

(** The loop of [generate_port_channels] is the concatenation of the
    per-channel lists. *)
Lemma generate_port_channels_flat_map :
  generate_port_channels = flat_map port_channel_pair (Py.range 10 46).
Proof.
  unfold generate_port_channels. now rewrite extend_loop_flat_map.
Qed.

Lemma port_channel_pair_length (po : Z) :
  List.length (port_channel_pair po) = 11%nat.
Proof. reflexivity. Qed.

Lemma port_channel_pair_blocks (po : Z) :
  port_channel_pair po = member_block po ++ aggregate_block po.
Proof. reflexivity. Qed.

(** Reading one more channel's commands adds its two interface blocks. *)
Lemma interface_blocks_pair (po : Z) (rest : list string) :
  interface_blocks (port_channel_pair po ++ rest)
  = member_block po :: aggregate_block po :: interface_blocks rest.
Proof. reflexivity. Qed.

Lemma interface_blocks_flat_map (l : list Z) :
  interface_blocks (flat_map port_channel_pair l)
  = flat_map (fun po => [member_block po; aggregate_block po]) l.
Proof.
  induction l as [|po l IH].
  - reflexivity.
  - change (flat_map port_channel_pair (po :: l))
      with (port_channel_pair po ++ flat_map port_channel_pair l).
    rewrite interface_blocks_pair, IH. reflexivity.
Qed.

(** C2.  [generate_port_channels] (start 10, end 45, member offset 9)
    produces exactly [2 * (end - start + 1)] interface blocks, and for
    each channel id [po] of the range the member interface it emits is
    [Ethernet<po - 9>], bound to channel group [po]. *)
Theorem port_channel_range_blocks :
  List.length (interface_blocks generate_port_channels)
    = Z.to_nat (2 * (45 - 10 + 1))
  /\ forall po : Z,
       (10 <= po <= 45)%Z ->
       nth_error (interface_blocks generate_port_channels)
                 (2 * Z.to_nat (po - 10))
       = Some [ "interface Ethernet" +++ Py.str (po - 9);
                "description PC_" +++ Py.str po +++ "_MEMBER";
                "channel-group " +++ Py.str po +++ " mode active";
                "no shutdown";
                "exit" ].
Proof.
  rewrite generate_port_channels_flat_map, interface_blocks_flat_map.
  split.
  - rewrite (flat_map_const_length _ 2) by reflexivity.
    rewrite range_length. reflexivity.
  - intros po Hpo.
    pose proof (flat_map_nth_error
                  (fun po => [member_block po; aggregate_block po]) 2
                  (fun _ => eq_refl) (Py.range 10 46)
                  (Z.to_nat (po - 10)) 0 po) as H.
    rewrite Nat.add_0_r in H. rewrite H.
    + reflexivity.
    + apply range_position. lia.
    + lia.
Qed.

Lemma port_channel_range_blocks_witness :
  (10 <= 27 <= 45)%Z
  /\ nth_error (interface_blocks generate_port_channels) 34
     = Some [ "interface Ethernet18"; "description PC_27_MEMBER";
              "channel-group 27 mode active"; "no shutdown"; "exit" ].
Proof.
  split; [lia | exact (proj2 port_channel_range_blocks 27%Z ltac:(lia))].
Defined.

(** C8.  For every channel id [po] of the range, the member-interface
    commands of [po] are immediately followed by the port-channel
    commands of the same [po]: the eleven commands sit in one window of
    the output, and the output is these windows one after another. *)
Theorem port_channel_pair_contiguous :
  generate_port_channels
    = flat_map (fun po => member_block po ++ aggregate_block po)
               (Py.range 10 46)
  /\ forall po : Z,
       (10 <= po <= 45)%Z ->
       firstn 11 (skipn (11 * Z.to_nat (po - 10)) generate_port_channels)
       = [ "interface Ethernet" +++ Py.str (po - 9);
           "description PC_" +++ Py.str po +++ "_MEMBER";
           "channel-group " +++ Py.str po +++ " mode active";
           "no shutdown";
           "exit" ]
         ++
         [ "interface Port-Channel" +++ Py.str po;
           "description UPLINK_PO_" +++ Py.str po;
           "switchport mode trunk";
           "mlag " +++ Py.str po;
           "no shutdown";
           "exit" ].
Proof.
  split.
  - apply generate_port_channels_flat_map.
  - intros po Hpo. rewrite generate_port_channels_flat_map.
    rewrite (flat_map_window port_channel_pair 11 port_channel_pair_length
               (Py.range 10 46) (Z.to_nat (po - 10)) po).
    + reflexivity.
    + apply range_position. lia.
Qed.

Lemma port_channel_pair_contiguous_witness :
  (10 <= 45 <= 45)%Z
  /\ firstn 11 (skipn 385 generate_port_channels)
     = [ "interface Ethernet36"; "description PC_45_MEMBER";
         "channel-group 45 mode active"; "no shutdown"; "exit";
         "interface Port-Channel45"; "description UPLINK_PO_45";
         "switchport mode trunk"; "mlag 45"; "no shutdown"; "exit" ].
Proof.
  split; [lia | exact (proj2 port_channel_pair_contiguous 45%Z ltac:(lia))].
Defined.

(** *** Which interfaces the port-channel batch configures *)

Lemma to_int_not_nil (n : Z) :
  Z.to_int n <> Decimal.Pos Decimal.Nil
  /\ Z.to_int n <> Decimal.Neg Decimal.Nil.
Proof.
  destruct n as [|p|p]; simpl; split; try discriminate;
    intros H; injection H as H; now apply Unsigned.to_uint_nonnil in H.
Qed.

(** [str] is one-to-one on integers. *)
Lemma str_injective (a b : Z) : Py.str a = Py.str b -> a = b.
Proof.
  unfold Py.str. intros H.
  apply (f_equal NilZero.int_of_string) in H.
  destruct (to_int_not_nil a) as [Ha1 Ha2].
  destruct (to_int_not_nil b) as [Hb1 Hb2].
  rewrite !NilZero.isi in H by assumption.
  injection H as H. now apply DecimalZ.to_int_inj.
Qed.

Lemma range_In (lo hi x : Z) :
  In x (Py.range lo hi) <-> (lo <= x < hi)%Z.
Proof.
  unfold Py.range. rewrite in_map_iff. split.
  - intros (i & <- & Hi). apply in_seq in Hi. lia.
  - intros H. exists (Z.to_nat (x - lo)). split; [lia|].
    apply in_seq. lia.
Qed.

Lemma range_NoDup (lo hi : Z) : NoDup (Py.range lo hi).
Proof.
  unfold Py.range.
  generalize (seq_NoDup (Z.to_nat (hi - lo)) 0).
  generalize (seq 0 (Z.to_nat (hi - lo))) as l.
  induction l as [|i l IH]; intros Hl; simpl.
  - constructor.
  - inversion Hl as [|? ? Hi Hl']; subst. constructor.
    + rewrite in_map_iff. intros (j & Hj & Hin).
      assert (j = i) by lia. now subst.
    + now apply IH.
Qed.

Lemma interface_declarations_pair (po : Z) (rest : list string) :
  interface_declarations (port_channel_pair po ++ rest)
  = ("interface Ethernet" +++ Py.str (po - 9))
    :: ("interface Port-Channel" +++ Py.str po)
    :: interface_declarations rest.
Proof. reflexivity. Qed.

Lemma interface_declarations_In (l : list Z) (cmd : string) :
  In cmd (interface_declarations (flat_map port_channel_pair l))
  <-> exists po : Z,
        In po l
        /\ (cmd = "interface Ethernet" +++ Py.str (po - 9)
            \/ cmd = "interface Port-Channel" +++ Py.str po).
Proof.
  induction l as [|po l IH].
  - simpl. split; [contradiction | intros (po & [] & _)].
  - change (flat_map port_channel_pair (po :: l))
      with (port_channel_pair po ++ flat_map port_channel_pair l).
    rewrite interface_declarations_pair. cbn [In]. rewrite IH. split.
    + intros [H|[H|(q & Hq & H)]].
      * exists po. split; [now left | left; now symmetry].
      * exists po. split; [now left | right; now symmetry].
      * exists q. split; [now right | exact H].
    + intros (q & [->|Hq] & [H|H]).
      * left. now symmetry.
      * right. left. now symmetry.
      * right. right. exists q. split; [exact Hq | now left].
      * right. right. exists q. split; [exact Hq | now right].
Qed.

Lemma ethernet_name_injective (a b : Z) :
  "interface Ethernet" +++ Py.str a = "interface Ethernet" +++ Py.str b ->
  a = b.
Proof. intros H. simpl in H. injection H as H. now apply str_injective. Qed.

Lemma port_channel_name_injective (a b : Z) :
  "interface Port-Channel" +++ Py.str a
  = "interface Port-Channel" +++ Py.str b ->
  a = b.
Proof. intros H. simpl in H. injection H as H. now apply str_injective. Qed.

Lemma interface_declarations_NoDup (l : list Z) :
  NoDup l -> NoDup (interface_declarations (flat_map port_channel_pair l)).
Proof.
  induction l as [|po l IH]; intros Hl.
  - constructor.
  - inversion Hl as [|? ? Hpo Hl']; subst.
    change (flat_map port_channel_pair (po :: l))
      with (port_channel_pair po ++ flat_map port_channel_pair l).
    rewrite interface_declarations_pair.
    constructor; [|constructor; [|now apply IH]].
    + intros [H|H].
      * simpl in H. discriminate H.
      * apply interface_declarations_In in H as (q & Hq & [H|H]).
        -- apply ethernet_name_injective in H.
           assert (q = po) by lia. now subst.
        -- simpl in H. discriminate H.
    + intros H.
      apply interface_declarations_In in H as (q & Hq & [H|H]).
      * simpl in H. discriminate H.
      * apply port_channel_name_injective in H. now subst.
Qed.

(** The port-channel batch declares each interface once: the commands
    ["interface ..."] of its output are pairwise different, and they are
    exactly [Ethernet1] to [Ethernet36] and [Port-Channel10] to
    [Port-Channel45]. *)
Theorem port_channel_interfaces_declared_once :
  NoDup (interface_declarations generate_port_channels)
  /\ forall cmd : string,
       In cmd (interface_declarations generate_port_channels)
       <-> (exists eth : Z,
               (1 <= eth <= 36)%Z
               /\ cmd = "interface Ethernet" +++ Py.str eth)
           \/ (exists po : Z,
                  (10 <= po <= 45)%Z
                  /\ cmd = "interface Port-Channel" +++ Py.str po).
Proof.
  rewrite generate_port_channels_flat_map. split.
  - apply interface_declarations_NoDup, range_NoDup.
  - intros cmd. rewrite interface_declarations_In. split.
    + intros (po & Hpo & [H|H]); apply range_In in Hpo.
      * left. exists (po - 9)%Z. split; [lia | exact H].
      * right. exists po. split; [lia | exact H].
    + intros [(eth & Heth & H)|(po & Hpo & H)].
      * exists (eth + 9)%Z. split; [apply range_In; lia|].
        left. now replace (eth + 9 - 9)%Z with eth by lia.
      * exists po. split; [apply range_In; lia | now right].
Qed.




End Templates.

Section FixedTemplates.

Import DR_DC_TOR_ARSW_02.

(** C7.  In [get_mlag_config] the peer-link interface
    ["interface Port-Channel100"] is declared, the MLAG domain block names
    it, and every declaration comes strictly before every command of the
    domain block that names it; likewise ["interface Vlan4094"] and the
    domain block's reference to [Vlan4094]. *)
Theorem mlag_declared_before_referenced :
  (nth_error get_mlag_config 13 = Some "interface Port-Channel100"
   /\ nth_error get_mlag_config 23 = Some "peer-link Port-Channel100"
   /\ In 13%nat (declarations "Port-Channel100" get_mlag_config)
   /\ In 23%nat (domain_references "Port-Channel100" get_mlag_config)
   /\ forall i j : nat,
        In i (declarations "Port-Channel100" get_mlag_config) ->
        In j (domain_references "Port-Channel100" get_mlag_config) ->
        (i < j)%nat)
  /\
  (nth_error get_mlag_config 4 = Some "interface Vlan4094"
   /\ nth_error get_mlag_config 21 = Some "local-interface Vlan4094"
   /\ In 4%nat (declarations "Vlan4094" get_mlag_config)
   /\ In 21%nat (domain_references "Vlan4094" get_mlag_config)
   /\ forall i j : nat,
        In i (declarations "Vlan4094" get_mlag_config) ->
        In j (domain_references "Vlan4094" get_mlag_config) ->
        (i < j)%nat).
Proof.
  assert (Hpd : declarations "Port-Channel100" get_mlag_config = [13%nat])
    by reflexivity.
  assert (Hpr : domain_references "Port-Channel100" get_mlag_config
                = [23%nat]) by reflexivity.
  assert (Hvd : declarations "Vlan4094" get_mlag_config = [4%nat])
    by reflexivity.
  assert (Hvr : domain_references "Vlan4094" get_mlag_config = [21%nat])
    by reflexivity.
  rewrite Hpd, Hpr, Hvd, Hvr.
  repeat split; try reflexivity; try (left; reflexivity).
  - intros i j [<-|[]] [<-|[]]. lia.
  - intros i j [<-|[]] [<-|[]]. lia.
Qed.

Lemma mlag_declared_before_referenced_witness :
  In 13%nat (declarations "Port-Channel100" get_mlag_config)
  /\ In 23%nat (domain_references "Port-Channel100" get_mlag_config)
  /\ (13 < 23)%nat.
Proof.
  split; [left; reflexivity | split; [left; reflexivity |]].
  apply (proj2 (proj2 (proj2 (proj2 (proj1 mlag_declared_before_referenced))))
           13%nat 23%nat); left; reflexivity.
Defined.

(** C10.  The batch of [get_base_config] has exactly one element equal to
    ["exitip domain-name Dashen.local"], the two adjacent literals joined;
    no ["exit"] follows ["interface Management1"], and
    ["ip domain-name Dashen.local"] is not an element of the batch. *)
Theorem base_config_fused_exit :
  nth_error get_base_config 16 = Some "exitip domain-name Dashen.local"
  /\ "exit" +++ "ip domain-name Dashen.local"
     = "exitip domain-name Dashen.local"
  /\ Py.count "exitip domain-name Dashen.local" get_base_config = 1%nat
  /\ Py.index_of "interface Management1" get_base_config = Some 13%nat
  /\ Py.count "exit" (skipn 13 get_base_config) = 0%nat
  /\ ~ In "exit" (skipn 13 get_base_config)
  /\ Py.count "ip domain-name Dashen.local" get_base_config = 0%nat
  /\ ~ In "ip domain-name Dashen.local" get_base_config.
Proof.
  repeat split; try reflexivity.
  - simpl. intros H.
    repeat (destruct H as [H|H]; [discriminate H|]). exact H.
  - simpl. intros H.
    repeat (destruct H as [H|H]; [discriminate H|]). exact H.
Qed.

End FixedTemplates.

(* ================================================================== *)
(** ** The deployment run *)
(* ================================================================== *)

Section DeploymentRun.

Import Runtime DR_DC_TOR_ARSW_02.

(** Unfold the statement forms of a run down to the transport's answers. *)
Ltac run_script :=
  cbv [deploy_config deploy_config_try establish_serial_connection
       with_ConnectHandler try_except try_finally bind ret raise lift
       perform cleanup record logger print bind_local in_locals sleep
       initial trace log stdout locals].

(** Split on the answer of the transport to the next call: the one whose
    history no longer waits for an earlier answer. *)
Ltac next_answer t :=
  match goal with
  | |- context [t ?h ?c] =>
      lazymatch h with
      | context [t] => fail
      | _ => destruct (t h c) as [?|?] eqn:?
      end
  end;
  cbv beta iota; cbn [app].

(** Split on the class of a raised exception where a handler asks. *)
Ltac which_exception :=
  match goal with
  | |- context [is_SerialException ?e] => is_var e; destruct e
  | |- context [Exception ?e] => is_var e; destruct e
  end;
  cbv beta iota delta [is_SerialException Exception].

(** Every course of a run: split on the six answers in turn. *)
Ltac all_courses t :=
  run_script; cbn [app];
  repeat (first [ which_exception | next_answer t ]).




(** C4, as the code has it.  When every batch send returns, the persist
    command is sent exactly once and only after the last batch; the run
    returns [True] exactly when that persist command returns too.  When
    it raises an exception deriving from [Exception] the run returns
    [False]; any other exception leaves [deploy_config]. *)
Theorem all_batches_sent_then_persist (t : transport) :
  every_batch_send_succeeds (trace (snd (deploy_config t initial))) ->
  (exists p : nat,
      persist_positions (trace (snd (deploy_config t initial))) = [p]
      /\ forall b : nat,
           In b (batch_positions (trace (snd (deploy_config t initial)))) ->
           (b < p)%nat)
  /\ (fst (deploy_config t initial) = Ok true
      <-> persist_returned (trace (snd (deploy_config t initial))) = true)
  /\ (forall e : exn,
        In (SendCommand "write memory" "#", Raise e)
           (trace (snd (deploy_config t initial))) ->
        fst (deploy_config t initial)
        = if Exception e then Ok false else Raise e).
Proof.
  destruct (deploy_config t initial) as [r w] eqn:Hrun.
  cbn [fst snd]. intros [Hsent Hnofail]. revert Hrun.
  all_courses t; intros Hrun; injection Hrun as <- <-;
    cbn in Hnofail; try discriminate Hnofail;
    cbn in Hsent; try discriminate Hsent;
    (split;
     [ exists 5%nat; split; [reflexivity|];
       cbn; intros b Hb; decompose [or] Hb; subst; (lia || contradiction)
     | split;
       [ cbn; split; intros; (reflexivity || discriminate)
       | intros e0 Hin; cbn in Hin;
         repeat (destruct Hin as [Hin|Hin];
                 [ try discriminate Hin;
                   try (injection Hin as <-; reflexivity) |]);
         contradiction ] ]).
Qed.

Lemma all_batches_sent_then_persist_witness :
  every_batch_send_succeeds
    (trace (snd (deploy_config always_ok initial)))
  /\ persist_returned (trace (snd (deploy_config always_ok initial))) = true
  /\ fst (deploy_config always_ok initial) = Ok true.
Proof.
  assert (Hs : every_batch_send_succeeds
                 (trace (snd (deploy_config always_ok initial))))
    by (split; reflexivity).
  split; [exact Hs|].
  split; [reflexivity|].
  apply (all_batches_sent_then_persist always_ok Hs). reflexivity.
Defined.

(** C4 as stated promises a successful result whenever every batch send
    succeeds.  On a transport where the three batches are accepted and
    ["write memory"] then raises, the run returns [False]. *)
Lemma persist_failure_after_all_batches :
  every_batch_send_succeeds
    (trace (snd (deploy_config persist_times_out initial)))
  /\ fst (deploy_config persist_times_out initial) = Ok false
  /\ fst (deploy_config persist_times_out initial) <> Ok true.
Proof.
  split; [split; reflexivity|].
  assert (H : fst (deploy_config persist_times_out initial) = Ok false)
    by reflexivity.
  split; [exact H | rewrite H; discriminate].
Qed.

(** *** Every course of a run *)

(** The result of [deploy_config] follows the first call that raises, and
    the run stops there, so at most one call raises.  Without one the
    result is [True]; an exception deriving from [Exception] gives
    [False]; any other exception is raised by [deploy_config] itself. *)
Theorem deploy_config_true_iff_no_call_raised (t : transport) :
  (fst (deploy_config t initial) = Ok true
   /\ raised (trace (snd (deploy_config t initial))) = [])
  \/ (exists e : exn,
         raised (trace (snd (deploy_config t initial))) = [e]
         /\ fst (deploy_config t initial)
            = if Exception e then Ok false else Raise e).
Proof.
  destruct (deploy_config t initial) as [r w] eqn:Hrun.
  cbn [fst snd]. revert Hrun.
  all_courses t; intros Hrun; injection Hrun as <- <-; cbn;
    solve [ left; split; reflexivity
          | right; eexists; split; reflexivity ].
Qed.

(** What a run leaves for the operator.  Without a failure the log holds
    the six INFO lines and the success line is printed.  After a failure
    ["Configuration saved"] is not logged; when the exception derives
    from [Exception] its text is printed once and the last log line is
    the error ["Deployment failed: ..."] with the same text; any other
    exception is neither printed nor logged. *)
Theorem deploy_config_reports_outcome (t : transport) :
  match raised (trace (snd (deploy_config t initial))) with
  | [] =>
      log (snd (deploy_config t initial)) = info_lines
      /\ stdout (snd (deploy_config t initial)) = [success_line]
  | e :: _ =>
      ~ In (INFO, "Configuration saved")
           (log (snd (deploy_config t initial)))
      /\ if Exception e
         then stdout (snd (deploy_config t initial))
              = ["[ERROR] " +++ str_exn e]
              /\ hd_error (rev (log (snd (deploy_config t initial))))
                 = Some (ERROR, "Deployment failed: " +++ str_exn e)
         else stdout (snd (deploy_config t initial)) = []
              /\ filter is_error_line
                   (log (snd (deploy_config t initial))) = []
  end.
Proof.
  destruct (deploy_config t initial) as [r w] eqn:Hrun.
  cbn [fst snd]. revert Hrun.
  all_courses t; intros Hrun; injection Hrun as <- <-; cbn;
    repeat split; try reflexivity;
    intros H; repeat (destruct H as [H|H]; [discriminate H|]); exact H.
Qed.

(** When opening the serial port raises, nothing else is attempted: no
    netmiko session, no close.  An exception deriving from [Exception]
    gives [False]; it is logged twice when it is a [SerialException], by
    [establish_serial_connection] and by [deploy_config], and once
    otherwise.  Any other exception leaves [deploy_config] with nothing
    logged or printed. *)
Theorem serial_failure_ends_run (t : transport) (e : exn) :
  t [] (SerialOpen SERIAL_PORT BAUDRATE TIMEOUT) = Raise e ->
  deploy_config t initial
  = if Exception e
    then (Ok false,
          World [(SerialOpen SERIAL_PORT BAUDRATE TIMEOUT, Raise e)]
                ((if is_SerialException e
                  then [(ERROR, "Serial connection failed: " +++ str_exn e)]
                  else [])
                 ++ [(ERROR, "Deployment failed: " +++ str_exn e)])
                ["[ERROR] " +++ str_exn e]
                [])
    else (Raise e,
          World [(SerialOpen SERIAL_PORT BAUDRATE TIMEOUT, Raise e)]
                [] [] []).
Proof.
  intros He. run_script. cbn [app]. rewrite He. cbv beta iota.
  destruct e; reflexivity.
Qed.

Lemma serial_failure_ends_run_witness :
  deploy_config (fun _ _ => Raise (SerialException "could not open port"))
                initial
  = (Ok false,
     World [(SerialOpen SERIAL_PORT BAUDRATE TIMEOUT,
             Raise (SerialException "could not open port"))]
           [(ERROR, "Serial connection failed: could not open port");
            (ERROR, "Deployment failed: could not open port")]
           ["[ERROR] could not open port"]
           []).
Proof.
  exact (serial_failure_ends_run
           (fun _ _ => Raise (SerialException "could not open port"))
           (SerialException "could not open port") eq_refl).
Defined.

(** When the serial port opens and [ConnectHandler] raises, no batch is
    sent, there is no session to disconnect, and the serial port is
    closed.  An exception deriving from [Exception] is logged and printed
    and the run returns [False]; any other exception leaves
    [deploy_config] after the close, unlogged. *)
Theorem connect_failure_closes_serial (t : transport) (ser : string)
    (e : exn) :
  t [] (SerialOpen SERIAL_PORT BAUDRATE TIMEOUT) = Ok ser ->
  t [(SerialOpen SERIAL_PORT BAUDRATE TIMEOUT, Ok ser)]
    (Connect netmiko_device) = Raise e ->
  deploy_config t initial
  = if Exception e
    then (Ok false,
          World [ (SerialOpen SERIAL_PORT BAUDRATE TIMEOUT, Ok ser);
                  (Connect netmiko_device, Raise e);
                  (SerialClose, Ok "") ]
                [ (INFO, "Serial connection established on COM4");
                  (ERROR, "Deployment failed: " +++ str_exn e) ]
                ["[ERROR] " +++ str_exn e]
                ["ser"])
    else (Raise e,
          World [ (SerialOpen SERIAL_PORT BAUDRATE TIMEOUT, Ok ser);
                  (Connect netmiko_device, Raise e);
                  (SerialClose, Ok "") ]
                [ (INFO, "Serial connection established on COM4") ]
                []
                ["ser"]).
Proof.
  intros Hser He. run_script. cbn [app]. rewrite Hser. cbv beta iota.
  cbn [app]. rewrite He. cbv beta iota. destruct e; reflexivity.
Qed.

Lemma connect_failure_closes_serial_witness :
  trace (snd (deploy_config
                (fun _ c => match c with
                            | Connect _ =>
                                Raise (OtherException "NetmikoTimeoutException"
                                                      "no prompt")
                            | _ => Ok ""
                            end) initial))
  = [ (SerialOpen SERIAL_PORT BAUDRATE TIMEOUT, Ok "");
      (Connect netmiko_device,
       Raise (OtherException "NetmikoTimeoutException" "no prompt"));
      (SerialClose, Ok "") ].
Proof.
  exact (f_equal (fun run => trace (snd run))
           (connect_failure_closes_serial
              (fun _ c => match c with
                          | Connect _ =>
                              Raise (OtherException "NetmikoTimeoutException"
                                                    "no prompt")
                          | _ => Ok ""
                          end)
              "" (OtherException "NetmikoTimeoutException" "no prompt")
              eq_refl eq_refl)).
Defined.

(** Whatever the transport does, what was opened is closed: the serial
    port is closed once exactly when it was opened, as the last call of
    the run; the netmiko session is disconnected once exactly when it was
    established, just before. *)
Theorem deploy_config_releases_what_it_opened (t : transport) :
  List.length
    (calls_where is_SerialClose (trace (snd (deploy_config t initial))))
  = (if some_returned is_SerialOpen (trace (snd (deploy_config t initial)))
     then 1%nat else 0%nat)
  /\ List.length
       (calls_where is_Disconnect (trace (snd (deploy_config t initial))))
     = (if some_returned is_Connect (trace (snd (deploy_config t initial)))
        then 1%nat else 0%nat)
  /\ (some_returned is_SerialOpen (trace (snd (deploy_config t initial)))
      = true ->
      hd_error (rev (map fst (trace (snd (deploy_config t initial)))))
      = Some SerialClose)
  /\ (some_returned is_Connect (trace (snd (deploy_config t initial)))
      = true ->
      firstn 2 (rev (map fst (trace (snd (deploy_config t initial)))))
      = [SerialClose; Disconnect]).
Proof.
  destruct (deploy_config t initial) as [r w] eqn:Hrun.
  cbn [fst snd]. revert Hrun.
  all_courses t; intros Hrun; injection Hrun as <- <-; cbn;
    repeat split; intros; (reflexivity || discriminate).
Qed.

Lemma deploy_config_releases_what_it_opened_witness :
  some_returned is_Connect
    (trace (snd (deploy_config (fails_on_batch 1) initial))) = true
  /\ firstn 2 (rev (map fst
                 (trace (snd (deploy_config (fails_on_batch 1) initial)))))
     = [SerialClose; Disconnect].
Proof.
  split; [reflexivity|].
  apply (deploy_config_releases_what_it_opened (fails_on_batch 1)).
  reflexivity.
Defined.

(** The batches go out in the fixed order base, MLAG, port-channels, each
    only after the one before returned and none before the session is
    established; ["write memory"] is sent at most once, and only when all
    three returned. *)
Theorem batches_in_order_then_persist (t : transport) :
  (exists k : nat,
      (k <= 3)%nat
      /\ map fst (batch_sends (trace (snd (deploy_config t initial))))
         = firstn k batches
      /\ firstn (k - 1)
                (completed_batches (trace (snd (deploy_config t initial))))
         = firstn (k - 1) batches)
  /\ (List.length (persist_positions (trace (snd (deploy_config t initial))))
      <= 1)%nat
  /\ (persist_positions (trace (snd (deploy_config t initial))) <> [] ->
      completed_batches (trace (snd (deploy_config t initial))) = batches)
  /\ (batch_sends (trace (snd (deploy_config t initial))) <> [] ->
      some_returned is_Connect (trace (snd (deploy_config t initial)))
      = true).
Proof.
  destruct (deploy_config t initial) as [r w] eqn:Hrun.
  cbn [fst snd]. revert Hrun.
  all_courses t; intros Hrun; injection Hrun as <- <-; cbn;
    (split;
     [ first [ exists 0%nat; split; [lia | split; reflexivity]
             | exists 1%nat; split; [lia | split; reflexivity]
             | exists 2%nat; split; [lia | split; reflexivity]
             | exists 3%nat; split; [lia | split; reflexivity] ]
     | split; [lia | split; intros H; (reflexivity || contradiction) ] ]).
Qed.

Lemma batches_in_order_then_persist_witness :
  persist_positions (trace (snd (deploy_config always_ok initial))) <> []
  /\ completed_batches (trace (snd (deploy_config always_ok initial)))
     = batches.
Proof.
  assert (H : persist_positions
                (trace (snd (deploy_config always_ok initial))) <> [])
    by (change ([5%nat] <> []); discriminate).
  split; [exact H|].
  exact (proj1 (proj2 (proj2 (batches_in_order_then_persist always_ok))) H).
Defined.

(** *** The script body *)

Ltac run_main t :=
  cbv [DR_DC_TOR_ARSW_02.main call_function
       deploy_config deploy_config_try establish_serial_connection
       with_ConnectHandler try_except try_finally bind ret raise lift
       perform cleanup record logger print bind_local in_locals sleep
       initial trace log stdout locals fst snd];
  cbn [app];
  repeat (first [ which_exception | next_answer t ]).

(** The statements of the script body: they announce the deployment,
    make exactly the calls and log lines of [deploy_config], and close
    with ["Done! ..."] when [deploy_config] returned [True] and with
    ["Deployment failed. ..."] when it returned [False]; an exception
    that [deploy_config] raises leaves the script with no closing
    line. *)
Theorem main_prints_verdict (t : transport) :
  fst (DR_DC_TOR_ARSW_02.main t initial)
  = match fst (deploy_config t initial) with
    | Ok _ => Ok tt
    | Raise e => Raise e
    end
  /\ trace (snd (DR_DC_TOR_ARSW_02.main t initial))
     = trace (snd (deploy_config t initial))
  /\ log (snd (DR_DC_TOR_ARSW_02.main t initial))
     = log (snd (deploy_config t initial))
  /\ stdout (snd (DR_DC_TOR_ARSW_02.main t initial))
     = ["Starting console deployment to DBDR-HCI-TOR-SW-02..."]
       ++ stdout (snd (deploy_config t initial))
       ++ match fst (deploy_config t initial) with
          | Ok true => ["Done! Check arista_console_deploy.log for details"]
          | Ok false => ["Deployment failed. Check logs for troubleshooting"]
          | Raise _ => []
          end.
Proof.
  run_main t; repeat split; reflexivity.
Qed.

End DeploymentRun.

(* ================================================================== *)
(** ** VLAN creation *)
(* ================================================================== *)

Section VlanCreation.

Import Runtime Vlan_Definitions.

(** The range test of the loop, as a proposition. *)
Lemma range_test (vlan_id : Z) :
  negb ((1 <=? vlan_id)%Z && (vlan_id <=? 4094)%Z) = false
  <-> valid_id vlan_id.
Proof.
  unfold valid_id. rewrite negb_false_iff, andb_true_iff.
  rewrite !Z.leb_le. tauto.
Qed.

Lemma names_cover_tail vlan_names i vlan_id rest :
  names_cover vlan_names i (vlan_id :: rest) ->
  names_cover vlan_names (S i) rest.
Proof.
  intros H Ht. destruct (H Ht) as (names & -> & Hlen).
  exists names. split; [reflexivity | simpl in Hlen; lia].
Qed.

Lemma getitem_covered vlan_names i vlan_id rest :
  names_cover vlan_names i (vlan_id :: rest) ->
  Py.truthy vlan_names = true ->
  exists name, getitem vlan_names i = Ok name.
Proof.
  intros H Ht. destruct (H Ht) as (names & -> & Hlen). simpl in *.
  destruct (nth_error names i) as [name|] eqn:E.
  - now exists name.
  - apply nth_error_None in E. lia.
Qed.

(** The loop stops with a [ValueError] at the first id out of range. *)
Lemma vlan_loop_rejects vlan_names :
  forall vlan_ids i commands,
    names_cover vlan_names i vlan_ids ->
    Exists (fun v => ~ valid_id v) vlan_ids ->
    exists msg,
      vlan_loop vlan_names i vlan_ids commands = Raise (ValueError msg).
Proof.
  induction vlan_ids as [|v rest IH]; intros i commands Hcover Hbad.
  - inversion Hbad.
  - simpl.
    destruct (negb ((1 <=? v)%Z && (v <=? 4094)%Z)) eqn:Htest.
    + eexists. reflexivity.
    + apply range_test in Htest.
      assert (Hrest : Exists (fun v => ~ valid_id v) rest)
        by (inversion Hbad; [contradiction | assumption]).
      pose proof (names_cover_tail _ _ _ _ Hcover) as Hcover'.
      destruct (Py.truthy vlan_names) eqn:Ht.
      * destruct (getitem_covered _ _ _ _ Hcover Ht) as [name ->].
        now apply IH.
      * now apply IH.
Qed.

(** The loop itself never reports a length mismatch. *)
Lemma vlan_loop_no_mismatch vlan_names :
  forall vlan_ids i commands,
    is_length_mismatch (vlan_loop vlan_names i vlan_ids commands) = false.
Proof.
  induction vlan_ids as [|v rest IH]; intros i commands; simpl.
  - reflexivity.
  - destruct (negb ((1 <=? v)%Z && (v <=? 4094)%Z)); [reflexivity|].
    destruct (Py.truthy vlan_names).
    + destruct vlan_names as [names|]; simpl.
      * destruct (nth_error names i); [apply IH | reflexivity].
      * reflexivity.
    + apply IH.
Qed.

(** Without names that count, each valid id gives one bare command. *)
Lemma vlan_loop_bare vlan_names :
  Py.truthy vlan_names = false ->
  forall vlan_ids i commands,
    Forall valid_id vlan_ids ->
    vlan_loop vlan_names i vlan_ids commands
    = Ok (commands ++ map (fun v => "vlan " +++ Py.str v) vlan_ids).
Proof.
  intros Ht.
  induction vlan_ids as [|v rest IH]; intros i commands Hvalid; simpl.
  - now rewrite app_nil_r.
  - inversion Hvalid as [|? ? Hv Hrest]; subst.
    apply range_test in Hv. rewrite Hv, Ht.
    rewrite IH by assumption. now rewrite <- app_assoc.
Qed.

(** The length check passes exactly when the names do not count or have
    the length of the ids. *)
Lemma length_check_passes vlan_ids vlan_names :
  Py.truthy vlan_names && negb (Py.len vlan_ids =? len_names vlan_names)%Z
  = false ->
  names_cover vlan_names 0 vlan_ids.
Proof.
  intros Hcheck Ht. rewrite Ht in Hcheck. simpl in Hcheck.
  apply negb_false_iff, Z.eqb_eq in Hcheck.
  destruct vlan_names as [names|]; [|discriminate Ht].
  exists names. split; [reflexivity|].
  unfold len_names, Py.len in Hcheck. simpl. lia.
Qed.

Lemma commands_reject_invalid vlan_ids vlan_names :
  Exists (fun v => ~ valid_id v) vlan_ids ->
  exists msg,
    create_vlans_commands vlan_ids vlan_names = Raise (ValueError msg).
Proof.
  intros Hbad. unfold create_vlans_commands.
  destruct (Py.truthy vlan_names
            && negb (Py.len vlan_ids =? len_names vlan_names)%Z) eqn:Hcheck.
  - eexists. reflexivity.
  - apply vlan_loop_rejects; [now apply length_check_passes | exact Hbad].
Qed.

(** An error of the construction leaves the world as it was. *)
Lemma create_vlans_validation_error t device vlan_ids vlan_names e w :
  create_vlans_commands vlan_ids vlan_names = Raise e ->
  create_vlans t device vlan_ids vlan_names w = (Raise e, w).
Proof.
  intros H. unfold create_vlans, bind, lift. now rewrite H.
Qed.

(** C5.  Whenever some id of [vlan_ids] is outside 1..4094,
    [create_vlans] raises a [ValueError] and the world is untouched: no
    connection was opened and no command sent. *)
Theorem invalid_id_rejected_before_transport (t : transport)
    (device : device_params) (vlan_ids : list Z)
    (vlan_names : option (list string)) (w : world) :
  (exists vlan_id, In vlan_id vlan_ids /\ ~ valid_id vlan_id) ->
  exists msg,
    create_vlans t device vlan_ids vlan_names w = (Raise (ValueError msg), w).
Proof.
  intros Hbad. apply Exists_exists in Hbad.
  destruct (commands_reject_invalid vlan_ids vlan_names Hbad) as [msg Hmsg].
  exists msg. now apply create_vlans_validation_error.
Qed.

Lemma invalid_id_rejected_before_transport_witness :
  (exists vlan_id, In vlan_id [5000%Z] /\ ~ valid_id vlan_id)
  /\ exists msg,
       create_vlans (echo "") switch [5000%Z] None initial
       = (Raise (ValueError msg), initial).
Proof.
  assert (H : exists vlan_id, In vlan_id [5000%Z] /\ ~ valid_id vlan_id).
  { exists 5000%Z. split; [left; reflexivity | unfold valid_id; lia]. }
  split; [exact H|].
  exact (invalid_id_rejected_before_transport
           (echo "") switch [5000%Z] None initial H).
Defined.

(** C6, as the code has it.  A names list that is not empty and whose
    length differs from that of the ids makes [create_vlans] raise the
    length-mismatch [ValueError], with the world untouched. *)
Theorem nonempty_names_mismatch_rejected (t : transport)
    (device : device_params) (vlan_ids : list Z) (names : list string)
    (w : world) :
  names <> [] ->
  List.length names <> List.length vlan_ids ->
  create_vlans t device vlan_ids (Some names) w
  = (Raise (ValueError "vlan_ids and vlan_names must be the same length"), w).
Proof.
  intros Hne Hlen. apply create_vlans_validation_error.
  unfold create_vlans_commands.
  destruct names as [|name names]; [contradiction|].
  cbn [Py.truthy andb len_names].
  destruct (Z.eqb_spec (Py.len vlan_ids) (Py.len (name :: names))) as [E|E].
  - unfold Py.len in E. apply Nat2Z.inj in E. congruence.
  - reflexivity.
Qed.

Lemma nonempty_names_mismatch_rejected_witness :
  ["MGMT"] <> []
  /\ List.length ["MGMT"] <> List.length [10%Z; 20%Z]
  /\ create_vlans (echo "") switch [10%Z; 20%Z] (Some ["MGMT"]) initial
     = (Raise (ValueError "vlan_ids and vlan_names must be the same length"),
        initial).
Proof.
  split; [discriminate|]. split; [discriminate|].
  apply nonempty_names_mismatch_rejected; discriminate.
Defined.

(** C6 as stated covers every supplied names list of another length.  With
    ids [[10, 20]] and the empty names list no error is raised: the
    connection is opened and the two bare commands are sent. *)
Lemma empty_names_mismatch_accepted :
  List.length (@nil string) <> List.length [10%Z; 20%Z]
  /\ raises_ValueError
       (fst (create_vlans (echo "") switch [10%Z; 20%Z] (Some []) initial))
     = false
  /\ create_vlans (echo "") switch [10%Z; 20%Z] (Some []) initial
     = (Ok "",
        World [ (Connect switch, Ok "");
                (SendConfigSet ["vlan 10"; "vlan 20"], Ok "");
                (SaveConfig, Ok "");
                (Disconnect, Ok "") ] [] [] []).
Proof.
  split; [discriminate|]. split; reflexivity.
Qed.

(** C9.  With the empty list as [vlan_names] the length check is skipped:
    no length-mismatch error is raised whatever the ids, valid ids give
    only bare ["vlan <id>"] commands, and the call behaves as if no names
    had been passed.  The mismatch error is raised exactly for a
    non-empty names list of another length. *)
Theorem empty_names_skip_length_check (vlan_ids : list Z) :
  is_length_mismatch (create_vlans_commands vlan_ids (Some [])) = false
  /\ (Forall valid_id vlan_ids ->
      create_vlans_commands vlan_ids (Some [])
      = Ok (map (fun v => "vlan " +++ Py.str v) vlan_ids))
  /\ (forall (t : transport) (device : device_params) (w : world),
        Forall valid_id vlan_ids ->
        create_vlans t device vlan_ids (Some []) w
        = with_ConnectHandler t device
            (bind (perform t
                     (SendConfigSet
                        (map (fun v => "vlan " +++ Py.str v) vlan_ids)))
                  (fun output => bind (perform t SaveConfig)
                                      (fun _ => ret output))) w)
  /\ (forall vlan_names : option (list string),
        is_length_mismatch (create_vlans_commands vlan_ids vlan_names) = true
        <-> exists names,
              vlan_names = Some names
              /\ names <> []
              /\ List.length names <> List.length vlan_ids).
Proof.
  assert (Hbare : Forall valid_id vlan_ids ->
                  create_vlans_commands vlan_ids (Some [])
                  = Ok (map (fun v => "vlan " +++ Py.str v) vlan_ids)).
  { intros Hvalid. unfold create_vlans_commands. cbn [Py.truthy andb].
    now rewrite vlan_loop_bare. }
  split; [|split; [exact Hbare | split]].
  - unfold create_vlans_commands. cbn [Py.truthy andb].
    apply vlan_loop_no_mismatch.
  - intros t device w Hvalid. unfold create_vlans.
    rewrite (Hbare Hvalid). reflexivity.
  - intros vlan_names. unfold create_vlans_commands. split.
    + destruct (Py.truthy vlan_names
                && negb (Py.len vlan_ids =? len_names vlan_names)%Z)
        eqn:Hcheck.
      * intros _. apply andb_true_iff in Hcheck as [Ht Hlen].
        destruct vlan_names as [[|name names]|]; try discriminate Ht.
        exists (name :: names). split; [reflexivity|].
        split; [discriminate|].
        apply negb_true_iff, Z.eqb_neq in Hlen.
        unfold len_names, Py.len in Hlen. intros E. apply Hlen.
        now rewrite E.
      * now rewrite vlan_loop_no_mismatch.
    + intros (names & -> & Hne & Hlen).
      destruct names as [|name names]; [contradiction|].
      cbn [Py.truthy andb len_names].
      destruct (Z.eqb_spec (Py.len vlan_ids) (Py.len (name :: names)))
        as [E|E].
      * unfold Py.len in E. apply Nat2Z.inj in E. congruence.
      * reflexivity.
Qed.

Lemma empty_names_skip_length_check_witness :
  Forall valid_id [10%Z; 20%Z]
  /\ create_vlans_commands [10%Z; 20%Z] (Some []) = Ok ["vlan 10"; "vlan 20"].
Proof.
  assert (H : Forall valid_id [10%Z; 20%Z])
    by (repeat constructor; unfold valid_id; lia).
  split; [exact H|].
  exact (proj1 (proj2 (empty_names_skip_length_check [10%Z; 20%Z])) H).
Defined.

(** C1, as the code has it.  For ids [[10, 20, 30]] and names
    [["MGMT", "VOICE", "DATA"]] the loop produces three command strings,
    one per VLAN, each holding the id line and the name line joined by a
    line feed; read line by line they are the six lines of the example,
    in that order. *)
Theorem vlan_batch_three_two_line_commands :
  create_vlans_commands [10%Z; 20%Z; 30%Z] (Some ["MGMT"; "VOICE"; "DATA"])
  = Ok [ "vlan 10" +++ Py.LF +++ "name MGMT";
         "vlan 20" +++ Py.LF +++ "name VOICE";
         "vlan 30" +++ Py.LF +++ "name DATA" ]
  /\ flat_map Py.split_lines
       [ "vlan 10" +++ Py.LF +++ "name MGMT";
         "vlan 20" +++ Py.LF +++ "name VOICE";
         "vlan 30" +++ Py.LF +++ "name DATA" ]
     = six_lines.
Proof. split; reflexivity. Qed.

(** C1 as stated expects six command strings.  The list the loop builds
    has three elements and is not the list of the six lines. *)
Lemma vlan_batch_not_six_commands :
  create_vlans_commands [10%Z; 20%Z; 30%Z] (Some ["MGMT"; "VOICE"; "DATA"])
  <> Ok six_lines
  /\ exists commands,
       create_vlans_commands [10%Z; 20%Z; 30%Z]
         (Some ["MGMT"; "VOICE"; "DATA"]) = Ok commands
       /\ List.length commands = 3%nat.
Proof.
  split.
  - intros H. vm_compute in H. discriminate H.
  - eexists. split; reflexivity.
Qed.

(** *** The command list in general *)

Lemma skipn_nth_error {A} (l : list A) :
  forall i x, nth_error l i = Some x -> skipn i l = x :: skipn (S i) l.
Proof.
  induction l as [|a l IH]; intros [|i] x H; simpl in H; try discriminate.
  - now injection H as ->.
  - now apply IH.
Qed.

(** With names that count and reach far enough, each valid id gives one
    command holding its id line and its name line. *)
Lemma vlan_loop_named (names : list string) :
  names <> [] ->
  forall vlan_ids i commands,
    Forall valid_id vlan_ids ->
    (i + List.length vlan_ids <= List.length names)%nat ->
    vlan_loop (Some names) i vlan_ids commands
    = Ok (commands
          ++ map named_command (combine vlan_ids (skipn i names))).
Proof.
  intros Hne.
  assert (Ht : Py.truthy (Some names) = true)
    by (destruct names; [contradiction | reflexivity]).
  induction vlan_ids as [|v rest IH]; intros i commands Hvalid Hlen.
  - simpl. now rewrite app_nil_r.
  - inversion Hvalid as [|? ? Hv Hrest]; subst.
    apply range_test in Hv.
    cbn [vlan_loop]. rewrite Hv, Ht. cbn [getitem].
    destruct (nth_error names i) as [name|] eqn:E.
    + rewrite IH by (simpl in Hlen; (assumption || lia)).
      rewrite (skipn_nth_error _ _ _ E). cbn [combine map].
      rewrite <- app_assoc. reflexivity.
    + apply nth_error_None in E. simpl in Hlen. lia.
Qed.

(** For valid ids and a non-empty names list of the same length the
    commands are, id by id and in the order given, the id line joined to
    the name line; there is one command per id, duplicates included. *)
Theorem named_commands_one_per_id (vlan_ids : list Z)
    (names : list string) :
  Forall valid_id vlan_ids ->
  names <> [] ->
  List.length names = List.length vlan_ids ->
  create_vlans_commands vlan_ids (Some names)
  = Ok (map named_command (combine vlan_ids names))
  /\ List.length (map named_command (combine vlan_ids names))
     = List.length vlan_ids.
Proof.
  intros Hvalid Hne Hlen. split.
  - unfold create_vlans_commands.
    assert (Ht : Py.truthy (Some names) = true)
      by (destruct names; [contradiction | reflexivity]).
    rewrite Ht. cbn [len_names andb]. unfold Py.len. rewrite Hlen.
    rewrite Z.eqb_refl. cbn [negb].
    now rewrite vlan_loop_named by (assumption || lia).
  - rewrite length_map, length_combine. lia.
Qed.

Lemma named_commands_one_per_id_witness :
  create_vlans_commands [20%Z; 20%Z] (Some ["A"; "B"])
  = Ok [ "vlan 20" +++ Py.LF +++ "name A"; "vlan 20" +++ Py.LF +++ "name B" ].
Proof.
  apply (named_commands_one_per_id [20%Z; 20%Z] ["A"; "B"]).
  - repeat constructor; unfold valid_id; lia.
  - discriminate.
  - reflexivity.
Defined.

(** What the loop returns tells how it went. *)
Lemma vlan_loop_outcome vlan_names :
  forall vlan_ids i commands,
    names_cover vlan_names i vlan_ids ->
    match vlan_loop vlan_names i vlan_ids commands with
    | Ok out =>
        Forall valid_id vlan_ids
        /\ List.length out
           = (List.length commands + List.length vlan_ids)%nat
    | Raise e =>
        is_ValueError e = true
        /\ Exists (fun v => ~ valid_id v) vlan_ids
    end.
Proof.
  induction vlan_ids as [|v rest IH]; intros i commands Hcover.
  - simpl. split; [constructor | lia].
  - cbn [vlan_loop].
    destruct (negb ((1 <=? v)%Z && (v <=? 4094)%Z)) eqn:Htest.
    + split; [reflexivity|]. left. intros Hv.
      apply range_test in Hv. congruence.
    + apply range_test in Htest.
      pose proof (names_cover_tail _ _ _ _ Hcover) as Hcover'.
      destruct (Py.truthy vlan_names) eqn:Ht.
      * destruct (getitem_covered _ _ _ _ Hcover Ht) as [name ->].
        specialize (IH (S i)
                       (commands
                        ++ [("vlan " +++ Py.str v) +++ Py.LF +++ "name "
                            +++ name]) Hcover').
        destruct (vlan_loop vlan_names (S i) rest _) as [out|e].
        -- destruct IH as [Hr Hl]. split; [now constructor|].
           rewrite Hl, length_app. simpl. lia.
        -- destruct IH as [He Hr]. split; [exact He | now right].
      * specialize (IH (S i) (commands ++ ["vlan " +++ Py.str v]) Hcover').
        destruct (vlan_loop vlan_names (S i) rest _) as [out|e].
        -- destruct IH as [Hr Hl]. split; [now constructor|].
           rewrite Hl, length_app. simpl. lia.
        -- destruct IH as [He Hr]. split; [exact He | now right].
Qed.

(** The construction succeeds exactly on valid input and then yields one
    command per id; whatever it raises is a [ValueError] (the names are
    never indexed past their end), for an id out of range or for names
    that count and have another length than the ids. *)
Theorem create_vlans_commands_outcome (vlan_ids : list Z)
    (vlan_names : option (list string)) :
  match create_vlans_commands vlan_ids vlan_names with
  | Ok commands =>
      Forall valid_id vlan_ids
      /\ List.length commands = List.length vlan_ids
      /\ (Py.truthy vlan_names = true ->
          len_names vlan_names = Py.len vlan_ids)
  | Raise e =>
      is_ValueError e = true
      /\ (Exists (fun v => ~ valid_id v) vlan_ids
          \/ (Py.truthy vlan_names = true
              /\ len_names vlan_names <> Py.len vlan_ids))
  end.
Proof.
  unfold create_vlans_commands.
  destruct (Py.truthy vlan_names
            && negb (Py.len vlan_ids =? len_names vlan_names)%Z) eqn:Hcheck.
  - apply andb_true_iff in Hcheck as [Ht Hlen].
    apply negb_true_iff, Z.eqb_neq in Hlen.
    split; [reflexivity|]. right. split; [exact Ht | congruence].
  - pose proof (vlan_loop_outcome vlan_names vlan_ids 0 []
                  (length_check_passes _ _ Hcheck)) as H.
    destruct (vlan_loop vlan_names 0 vlan_ids []) as [out|e].
    + destruct H as [Hv Hl]. split; [exact Hv|]. split; [exact Hl|].
      intros Ht. rewrite Ht in Hcheck. simpl in Hcheck.
      apply negb_false_iff, Z.eqb_eq in Hcheck. congruence.
    + destruct H as [He Hbad]. split; [exact He | now left].
Qed.

Lemma create_vlans_commands_outcome_witness :
  Py.truthy (Some ["MGMT"]) = true
  /\ len_names (Some ["MGMT"]) = Py.len [10%Z].
Proof.
  split; [reflexivity|].
  exact (proj2 (proj2 (create_vlans_commands_outcome [10%Z] (Some ["MGMT"])))
           eq_refl).
Defined.

Lemma vlan_loop_first_invalid vlan_names :
  forall good i commands bad rest,
    names_cover vlan_names i (good ++ bad :: rest) ->
    Forall valid_id good ->
    ~ valid_id bad ->
    vlan_loop vlan_names i (good ++ bad :: rest) commands
    = Raise (invalid_id_error bad).
Proof.
  induction good as [|v good IH]; intros i commands bad rest Hcover Hgood Hbad.
  - cbn [app vlan_loop].
    destruct (negb ((1 <=? bad)%Z && (bad <=? 4094)%Z)) eqn:Htest.
    + reflexivity.
    + apply range_test in Htest. contradiction.
  - inversion Hgood as [|? ? Hv Hrest]; subst.
    apply range_test in Hv.
    change ((v :: good) ++ bad :: rest) with (v :: (good ++ bad :: rest))
      in *.
    cbn [vlan_loop]. rewrite Hv.
    pose proof (names_cover_tail _ _ _ _ Hcover) as Hcover'.
    destruct (Py.truthy vlan_names) eqn:Ht.
    + destruct (getitem_covered _ _ _ _ Hcover Ht) as [name ->].
      now apply IH.
    + now apply IH.
Qed.

(** When the length check passes, the error names the first id out of
    range, later ones are not looked at, and nothing has been sent. *)
Theorem first_invalid_id_is_reported (t : transport)
    (device : device_params) (good : list Z) (bad : Z) (rest : list Z)
    (vlan_names : option (list string)) (w : world) :
  Forall valid_id good ->
  ~ valid_id bad ->
  (Py.truthy vlan_names = true ->
   len_names vlan_names = Py.len (good ++ bad :: rest)) ->
  create_vlans t device (good ++ bad :: rest) vlan_names w
  = (Raise (ValueError ("Invalid VLAN ID " +++ Py.str bad
                        +++ ": Must be 1-4094")), w).
Proof.
  intros Hgood Hbad Hlen. apply create_vlans_validation_error.
  unfold create_vlans_commands.
  destruct (Py.truthy vlan_names
            && negb (Py.len (good ++ bad :: rest)
                     =? len_names vlan_names)%Z) eqn:Hcheck.
  - apply andb_true_iff in Hcheck as [Ht Hne].
    apply negb_true_iff, Z.eqb_neq in Hne. specialize (Hlen Ht). congruence.
  - apply vlan_loop_first_invalid;
      [now apply length_check_passes | assumption | assumption].
Qed.

Lemma first_invalid_id_is_reported_witness :
  create_vlans (echo "") switch ([10%Z] ++ 0%Z :: [5000%Z])
               (Some ["A"; "B"; "C"]) initial
  = (Raise (ValueError "Invalid VLAN ID 0: Must be 1-4094"), initial).
Proof.
  apply (first_invalid_id_is_reported (echo "") switch [10%Z] 0%Z [5000%Z]
           (Some ["A"; "B"; "C"]) initial).
  - repeat constructor; unfold valid_id; lia.
  - unfold valid_id; lia.
  - reflexivity.
Defined.

(** *** The session *)

Ltac run_session :=
  cbv [create_vlans with_ConnectHandler try_finally bind ret lift
       perform cleanup record call_function Vlan_Definitions.main print
       trace log stdout locals fst snd initial].

(** Once the commands are built, [create_vlans] connects, sends them in
    one [send_config_set], saves, and disconnects.  It returns the output
    of [send_config_set]; an exception of the transport comes out
    unchanged; [save_config] is only tried after the commands were
    accepted; whenever the connection was established it is
    disconnected, and a failed connection is not. *)
Theorem create_vlans_session (t : transport) (device : device_params)
    (vlan_ids : list Z) (vlan_names : option (list string))
    (commands : list string) (w : world) :
  create_vlans_commands vlan_ids vlan_names = Ok commands ->
  exists new : list event,
    snd (create_vlans t device vlan_ids vlan_names w)
    = World (trace w ++ new) (log w) (stdout w) (locals w)
    /\ match fst (create_vlans t device vlan_ids vlan_names w) with
       | Ok output =>
           exists o1 o3,
             new = [ (Connect device, Ok o1);
                     (SendConfigSet commands, Ok output);
                     (SaveConfig, Ok o3);
                     (Disconnect, Ok "") ]
       | Raise e =>
           new = [ (Connect device, Raise e) ]
           \/ (exists o1,
                  new = [ (Connect device, Ok o1);
                          (SendConfigSet commands, Raise e);
                          (Disconnect, Ok "") ])
           \/ (exists o1 o2,
                  new = [ (Connect device, Ok o1);
                          (SendConfigSet commands, Ok o2);
                          (SaveConfig, Raise e);
                          (Disconnect, Ok "") ])
       end.
Proof.
  intros Hc. destruct w as [tr lg out lc].
  unfold create_vlans at 1 2. rewrite Hc. run_session.
  destruct (t tr (Connect device)) as [o1|e1] eqn:E1; cbv beta iota.
  - match goal with
    | |- context [t ?h (SendConfigSet commands)] =>
        destruct (t h (SendConfigSet commands)) as [o2|e2] eqn:E2
    end; cbv beta iota.
    + match goal with
      | |- context [t ?h SaveConfig] =>
          destruct (t h SaveConfig) as [o3|e3] eqn:E3
      end; cbv beta iota.
      * eexists. split.
        -- rewrite <- !app_assoc. cbn [app]. reflexivity.
        -- exists o1, o3. reflexivity.
      * eexists. split.
        -- rewrite <- !app_assoc. cbn [app]. reflexivity.
        -- right. right. exists o1, o2. reflexivity.
    + eexists. split.
      * rewrite <- !app_assoc. cbn [app]. reflexivity.
      * right. left. exists o1. reflexivity.
  - eexists. split; [reflexivity | left; reflexivity].
Qed.

Lemma create_vlans_session_witness :
  exists new : list event,
    snd (create_vlans (echo "done") switch [10%Z] None initial)
    = World (trace initial ++ new) [] [] []
    /\ new = [ (Connect switch, Ok "done");
               (SendConfigSet ["vlan 10"], Ok "done");
               (SaveConfig, Ok "done");
               (Disconnect, Ok "") ].
Proof.
  destruct (create_vlans_session (echo "done") switch [10%Z] None
              ["vlan 10"] initial eq_refl) as [new [Hw Hnew]].
  exists new. split; [exact Hw|].
  cbn in Hw. injection Hw as <-. reflexivity.
Defined.

(** Run as a script, the file sends the four example VLANs with their
    names in one batch.  When [create_vlans] returns, the heading and the
    device output are printed; when the transport raises, the exception
    leaves the script and nothing is printed. *)
Theorem vlan_main_prints_result_or_propagates (t : transport) :
  match fst (Vlan_Definitions.main t initial) with
  | Ok _ =>
      exists o1 output o3,
        trace (snd (Vlan_Definitions.main t initial))
        = [ (Connect switch, Ok o1);
            (SendConfigSet [ "vlan 10" +++ Py.LF +++ "name MGMT";
                             "vlan 20" +++ Py.LF +++ "name VOICE";
                             "vlan 30" +++ Py.LF +++ "name DATA";
                             "vlan 40" +++ Py.LF +++ "name GUEST" ],
             Ok output);
            (SaveConfig, Ok o3);
            (Disconnect, Ok "") ]
        /\ stdout (snd (Vlan_Definitions.main t initial))
           = ["VLAN creation result:"; output]
  | Raise e =>
      raised (trace (snd (Vlan_Definitions.main t initial))) = [e]
      /\ stdout (snd (Vlan_Definitions.main t initial)) = []
      /\ calls_where is_SaveConfig
           (trace (snd (Vlan_Definitions.main t initial)))
         = match calls_where is_SendConfigSet
                   (trace (snd (Vlan_Definitions.main t initial))) with
           | [(_, Ok _)] => [(SaveConfig, Raise e)]
           | _ => []
           end
  end.
Proof.
  assert (Hc : create_vlans_commands vlans_to_create (Some vlan_names)
               = Ok [ "vlan 10" +++ Py.LF +++ "name MGMT";
                      "vlan 20" +++ Py.LF +++ "name VOICE";
                      "vlan 30" +++ Py.LF +++ "name DATA";
                      "vlan 40" +++ Py.LF +++ "name GUEST" ])
    by reflexivity.
  unfold Vlan_Definitions.main, create_vlans. rewrite Hc. run_session.
  cbn [app].
  destruct (t [] (Connect switch)) as [o1|e1] eqn:E1; cbv beta iota;
    cbn [app]; [|repeat split; reflexivity].
  match goal with
  | |- context [t ?h (SendConfigSet ?c)] =>
      destruct (t h (SendConfigSet c)) as [o2|e2] eqn:E2
  end; cbv beta iota; cbn [app]; [|repeat split; reflexivity].
  match goal with
  | |- context [t ?h SaveConfig] =>
      destruct (t h SaveConfig) as [o3|e3] eqn:E3
  end; cbv beta iota; cbn [app]; [|repeat split; reflexivity].
  exists o1, o2, o3. split; reflexivity.
Qed.

Lemma vlan_loop_falsy_names (names1 names2 : option (list string)) :
  Py.truthy names1 = false ->
  Py.truthy names2 = false ->
  forall vlan_ids i commands,
    vlan_loop names1 i vlan_ids commands
    = vlan_loop names2 i vlan_ids commands.
Proof.
  intros H1 H2.
  induction vlan_ids as [|v rest IH]; intros i commands.
  - reflexivity.
  - cbn [vlan_loop]. rewrite H1, H2.
    destruct (negb ((1 <=? v)%Z && (v <=? 4094)%Z)); [reflexivity|].
    apply IH.
Qed.

(** An empty names list cannot be told from no names at all: for every
    transport, device, id list (valid or not) and world, the two calls
    return the same result and leave the same world. *)
Theorem empty_names_same_as_none (t : transport) (device : device_params)
    (vlan_ids : list Z) (w : world) :
  create_vlans t device vlan_ids (Some []) w
  = create_vlans t device vlan_ids None w.
Proof.
  unfold create_vlans, create_vlans_commands. cbn [Py.truthy andb].
  now rewrite (vlan_loop_falsy_names (Some []) None eq_refl eq_refl).
Qed.

End VlanCreation.
